(** * A blog-writing crew and its credential resolver

    Shallow embedding of the two Python files of the repository:

    - [utils.py]: [get_openai_api_key], which looks the key up in the process
      environment after loading a [.env] file, and prompts for it otherwise;
    - [agents.py]: the three agents, the three tasks, the crew, and the
      top-level script that resolves the credential and kicks the crew off.

    Python code runs in a small state-and-exception monad over a [World]
    that holds the process environment, the parsed [.env] file, the pending
    terminal input and the trace of observable events. The two library
    calls the resolver rests on, [load_dotenv()] of python-dotenv and the
    assignment to [os.environ], are modelled after the libraries: the first
    with its [PYTHON_DOTENV_DISABLED] switch and its expansion of [${VAR}]
    references, the second with the [ValueError] it raises on a NUL byte. *)

From Stdlib Require Import Ascii.
From stdpp Require Import gmap strings list fin_maps relations.

Set Warnings "-register-all".
Open Scope string_scope.

(** ** Python values and exceptions *)

(** The values [os.environ.get] can yield: [None] or a [str]. *)
Inductive pyval :=
  | PyNone
  | PyStr (s : string).

(** Python truthiness: [None] and the empty string are falsy. *)
Definition truthy (v : pyval) : bool :=
  match v with
  | PyNone => false
  | PyStr "" => false
  | PyStr _ => true
  end.

(** [not v] *)
Definition py_not (v : pyval) : bool := negb (truthy v).

Definition of_lookup (o : option string) : pyval :=
  match o with
  | Some s => PyStr s
  | None => PyNone
  end.

Inductive exn :=
  | ImportError (msg : string)
  | EOFError
  | TypeError (msg : string)
  | ValueError (msg : string)
  | Foreign (kind msg : string).

(** ** The agents, tasks and crew of agents.py (data) *)

Record Agent := mkAgent {
  role : string;
  goal : string;
  backstory : string;
  allow_delegation : bool;
  verbose : bool
}.

(** [context] is absent in the first task of the script; crewai's default is
    no upstream task, the empty list here. *)
Inductive Task := mkTask {
  name : string;
  description : string;
  expected_output : string;
  agent : Agent;
  context : list Task
}.

Record Crew := mkCrew {
  agents : list Agent;
  tasks : list Task;
  crew_verbose : bool
}.

(** ** Strings an environment can hold *)

(** A NUL byte cannot be part of an environment variable. *)
Fixpoint has_nul (s : string) : bool :=
  match s with
  | EmptyString => false
  | String c s' => Ascii.eqb c "000"%char || has_nul s'
  end.

(** The strings without NUL byte: the values of [os.environ], and the text
    of a [.env] file. *)
Record envstr := mk_envstr {
  envstr_car :> string;
  envstr_ok : has_nul envstr_car = false
}.

Definition to_envstr (s : string) : option envstr :=
  match decide (has_nul s = false) with
  | left H => Some (mk_envstr s H)
  | right _ => None
  end.

Definition envstr_empty : envstr := mk_envstr "" eq_refl.

(** Concatenation of two such strings is one again, so [to_envstr] always
    has a result here. *)
Definition envstr_app (a b : envstr) : envstr :=
  default envstr_empty (to_envstr (envstr_car a ++ envstr_car b)).

Fixpoint has_equals (s : string) : bool :=
  match s with
  | EmptyString => false
  | String c s' => Ascii.eqb c "="%char || has_equals s'
  end.

(** A name [os.environ] accepts: not empty, without [=] and without NUL. *)
Definition valid_name (k : string) : bool :=
  negb (String.eqb k "") && negb (has_equals k) && negb (has_nul k).

(** ** The parsed [.env] file, as python-dotenv reads it *)

(** A value of the file is a sequence of atoms: literal text ([Literal])
    and references [${name}] or [${name:-default}] (python-dotenv's
    [Variable], a reserved word here). *)
Inductive atom :=
  | Literal (value : envstr)
  | VariableRef (name : string) (default : option envstr).

(** The bindings of the file in the order of its lines; a key written
    without [=] has no value. The file is text: its literals hold no NUL
    byte, and its keys are names [os.environ] accepts. *)
Definition raw_values : Type := list (string * option (list atom)).

(** ** The world the scripts run in *)

Inductive event :=
  | Printed (line : string)
  | Getpass (prompt : string) (answer : option string).

(** [os_environ] is the process environment. [dotenv_file] is the [.env]
    file [load_dotenv()] finds: [None] when there is none, otherwise its
    bindings. [tty] holds the lines the user will type, which may hold any
    byte. *)
Record World := mkWorld {
  os_environ : gmap string envstr;
  dotenv_file : option raw_values;
  utils_importable : bool;
  tty : list string;
  trace : list event
}.

(** The environment as the mapping from names to strings Python sees. *)
Definition environ (w : World) : gmap string string :=
  envstr_car <$> os_environ w.

Definition with_os_environ (e : gmap string envstr) (w : World) : World :=
  {| os_environ := e; dotenv_file := dotenv_file w;
     utils_importable := utils_importable w; tty := tty w; trace := trace w |}.

Definition with_tty (t : list string) (w : World) : World :=
  {| os_environ := os_environ w; dotenv_file := dotenv_file w;
     utils_importable := utils_importable w; tty := t; trace := trace w |}.

Definition emit (e : event) (w : World) : World :=
  {| os_environ := os_environ w; dotenv_file := dotenv_file w;
     utils_importable := utils_importable w; tty := tty w;
     trace := trace w ++ [e] |}.

(** ** The monad: state passing with exceptions *)

Definition result (A : Type) : Type := exn + A.

Definition M (A : Type) : Type := World → result A * World.

Global Instance M_ret : MRet M := λ A x w, (inr x, w).

Global Instance M_bind : MBind M := λ A B f m w,
  match m w with
  | (inl e, w') => (inl e, w')
  | (inr x, w') => f x w'
  end.

Definition raise {A} (e : exn) : M A := λ w, (inl e, w).

Definition returned {A} (r : result A * World) : result A := r.1.
Definition final {A} (r : result A * World) : World := r.2.

(** ** Library calls used by utils.py *)

(** [os.environ.get(k)] *)
Definition environ_get (k : string) : M pyval :=
  λ w, (inr (of_lookup (environ w !! k)), w).

(** [os.environ[k] = v]: anything but a [str] raises [TypeError]; a NUL
    byte in the name or in the value raises [ValueError] when the two are
    encoded, and so does, after that, a name that is empty or holds [=]. *)
Definition environ_set (k : string) (v : pyval) : M unit :=
  match v with
  | PyStr s =>
      match to_envstr s with
      | Some e =>
          if valid_name k then
            λ w, (inr (), with_os_environ (<[k := e]> (os_environ w)) w)
          else if has_nul k then raise (ValueError "embedded null byte")
          else raise (ValueError "illegal environment variable name")
      | None => raise (ValueError "embedded null byte")
      end
  | PyNone => raise (TypeError "str expected, not NoneType")
  end.

Arguments environ_set : simpl never.

(** [print(line)] *)
Definition print (line : string) : M unit :=
  λ w, (inr (), emit (Printed line) w).

(** [getpass(prompt)]: reads one line from the terminal without echo and
    hands it back as it is; [EOFError] when no input is left. *)
Definition getpass (prompt : string) : M pyval :=
  λ w,
    match tty w with
    | answer :: rest =>
        (inr (PyStr answer), emit (Getpass prompt (Some answer)) (with_tty rest w))
    | [] => (inl EOFError, emit (Getpass prompt None) w)
    end.

(** *** python-dotenv *)

Definition ascii_lower (c : ascii) : ascii :=
  let n := nat_of_ascii c in
  if Nat.leb 65 n && Nat.leb n 90 then ascii_of_nat (n + 32) else c.

(** [str.casefold] as far as it can yield one of the words below: ASCII
    letters are lowered and the long s (U+017F, bytes 197 191 in UTF-8)
    becomes [s]; every other character folds to text outside ASCII or to
    letters no word below holds. *)
Fixpoint casefold (s : string) : string :=
  match s with
  | EmptyString => EmptyString
  | String "197"%char (String "191"%char s') => String "s"%char (casefold s')
  | String c s' => String (ascii_lower c) (casefold s')
  end.

(** [_load_dotenv_disabled()]: the switch [PYTHON_DOTENV_DISABLED]. *)
Definition load_dotenv_disabled (e : gmap string string) : bool :=
  match e !! "PYTHON_DOTENV_DISABLED" with
  | None => false
  | Some value =>
      bool_decide (casefold value ∈ ["1"; "true"; "t"; "yes"; "y"])
  end.

(** [Atom.resolve(env)]: a literal is itself; a reference is [env.get(name,
    default)], with the empty string for a missing default and for a
    variable bound to [None]. *)
Definition atom_resolve (env : gmap string (option envstr)) (a : atom) : envstr :=
  match a with
  | Literal value => value
  | VariableRef name default =>
      let default := from_option id envstr_empty default in
      let result := from_option id (Some default) (env !! name) in
      from_option id envstr_empty result
  end.

(** [resolve_variables(values, override=False)]: the bindings are resolved
    in order; a reference sees the process environment first and the
    bindings resolved so far second. *)
Definition resolve_binding (os_env : gmap string envstr)
    (new_values : gmap string (option envstr))
    (binding : string * option (list atom)) : gmap string (option envstr) :=
  let result :=
    match binding.2 with
    | None => None
    | Some atoms =>
        let env := (Some <$> os_env) ∪ new_values in
        Some (foldr envstr_app envstr_empty (atom_resolve env <$> atoms))
    end in
  <[binding.1 := result]> new_values.

Definition resolve_variables (os_env : gmap string envstr) (values : raw_values)
    : gmap string (option envstr) :=
  foldl (resolve_binding os_env) ∅ values.

(** [DotEnv.set_as_environment_variables()] with [override=False]: a key of
    the file is set when it has a value and the environment does not hold
    the key already. The values hold no NUL, so no assignment raises. *)
Definition dotenv_merge (e : gmap string envstr) (values : raw_values)
    : gmap string envstr :=
  e ∪ omap id (resolve_variables e values).

(** [load_dotenv()]; its boolean result is dropped by the caller. *)
Definition load_dotenv : M unit :=
  λ w,
    if load_dotenv_disabled (environ w) then (inr (), w)
    else
      match dotenv_file w with
      | Some values =>
          (inr (), with_os_environ (dotenv_merge (os_environ w) values) w)
      | None => (inr (), w)
      end.

(** ** utils.py *)

Definition OPENAI_API_KEY : string := "OPENAI_API_KEY".

Definition get_openai_api_key : M pyval :=
  load_dotenv ;;
  api_key ← environ_get OPENAI_API_KEY;
  if py_not api_key then
    print "OpenAI API key not found in environment variables." ;;
    api_key ← getpass "Please enter your OpenAI API key: ";
    environ_set OPENAI_API_KEY api_key ;;
    mret api_key
  else
    mret api_key.

(** Number of times the interactive prompt was invoked in a trace. *)
Fixpoint prompt_count (t : list event) : nat :=
  match t with
  | [] => 0
  | Getpass _ _ :: t' => S (prompt_count t')
  | _ :: t' => prompt_count t'
  end.

(** The value [load_dotenv()] has for a key at this world: none when
    loading is switched off, when there is no file, or when the file does
    not give the key a value. *)
Definition dotenv_value (w : World) (k : string) : option string :=
  if load_dotenv_disabled (environ w) then None
  else
    match dotenv_file w with
    | Some values =>
        match resolve_variables (os_environ w) values !! k with
        | Some (Some v) => Some (envstr_car v)
        | _ => None
        end
    | None => None
    end.

(** ** agents.py *)

Definition planner : Agent := {|
  role := "Blog content planner";
  goal := "Plan engaging and factually accurate content on {topic} for a compelling story-telling through blog contents";
  backstory :=
    "You are working on planning a blog article "
    ++ "about the topic: {topic}. "
    ++ "You collect information, organize it in a well structured format that helps audience to consume the information easily and audience learn something "
    ++ "and make informed decisions. "
    ++ "Your work is the basis for the content writer to write an article / blog post on this topic";
  allow_delegation := false;
  verbose := true
|}.

Definition writer : Agent := {|
  role := "Blog content writer";
  goal := "Write insightful and factually accurate, opinion piece, in a compelling story-telling format about the {topic}.";
  backstory :=
    "You are working on writing "
    ++ "a new opinion piece about the topic: {topic}. "
    ++ "You base your writing on the work of "
    ++ "the Content Planner, who provides an outline "
    ++ "and relevant context about the topic. "
    ++ "You follow the main objectives and direction of the outline, "
    ++ "as provided by the Content Planner. "
    ++ "You also provide objective and impartial insights "
    ++ "and back them up with the information provided by the Content Planner. "
    ++ "When your statements are opinions, as opposed to objective statements, "
    ++ "make that clear to the reader.";
  allow_delegation := false;
  verbose := true
|}.

Definition editor : Agent := {|
  role := "Blog content editor";
  goal := "Edit the blog content for clarity, coherence, grammar, and factual accuracy. Ensure the content flows well and is engaging for the target audience.";
  backstory := "You are working on editing a blog article about the topic: {topic}.";
  allow_delegation := false;
  verbose := true
|}.

Definition plan : Task := {|
  name := "Plan the blog content";
  description :=
    "Create a detailed outline for a blog article on the topic: {topic}. with a call to action"
    ++ "Priortize the latest trends, key players and noteworthy news on {topic}."
    ++ "Idenitfy and address the audience pain points and hook them on {topic}."
    ++ "include SEO keywords and relevant data or sources.";
  expected_output :=
    "A comprehensive content plan document with an outline, audience analysis,."
    ++ "SEO keywords, and resources";
  agent := planner;
  context := []
|}.

Definition write : Task := {|
  name := "Write the blog content";
  description := "Write the blog content based on the outline created in the planning phase.";
  agent := writer;
  context := [plan];
  expected_output := "A comprehensive blog article based on the plan provided"
|}.

Definition edit : Task := {|
  name := "Edit the blog content";
  description := "Edit the blog content for clarity, coherence, grammar, and factual accuracy.";
  agent := editor;
  context := [write];
  expected_output := "A polished and refined blog article ready for publication."
|}.

Definition crew : Crew := {|
  agents := [planner; writer; editor];
  tasks := [plan; write; edit];
  crew_verbose := true
|}.

Definition import_error_message : string :=
  "utils.py with get_openai_api_key() not found. Please add it to your project.".

(** The stub bound by the [except ImportError] branch. *)
Definition fallback_get_openai_api_key : M pyval :=
  raise (ImportError import_error_message).

(** The name [get_openai_api_key] as agents.py binds it: the function of
    utils.py when the import succeeds, the stub otherwise. *)
Definition imported_get_openai_api_key : M pyval :=
  λ w, if utils_importable w then get_openai_api_key w
       else fallback_get_openai_api_key w.

Section Script.

(** [Crew.kickoff], supplied by the crewai package: it may read and change
    the world and may raise. *)
Variable kickoff : Crew → list (string * string) → M string.

(** The module body of agents.py, with the topic of its last line as a
    parameter. *)
Definition script (topic : string) : M string :=
  openai_api_key ← imported_get_openai_api_key;
  environ_set "OPENAI_API_KEY" openai_api_key ;;
  environ_set "OPENAI_MODEL_NAME" (PyStr "gpt-4") ;;
  kickoff crew [("topic", topic)].

Definition main : M string :=
  script "AI Engineering and AI-first Engineering approach".

End Script.

(** ** Measures used by the statements *)

(** Upstream dependency: [u] is in the context of [t]. *)
Definition depends_on (t u : Task) : Prop := u ∈ context t.

(** Height of a task in the dependency structure. *)
Fixpoint height (t : Task) : nat :=
  match t with
  | mkTask _ _ _ _ ctx => S (foldr (λ u n, height u `max` n) 0 ctx)
  end.

(** Number of positions of [s] at which [pat] starts. *)
Fixpoint occurrences (pat s : string) : nat :=
  match s with
  | EmptyString => if String.prefix pat s then 1 else 0
  | String _ s' => (if String.prefix pat s then 1 else 0) + occurrences pat s'
  end.

(** A goal with exactly one substitution placeholder, which is [{topic}]. *)
Definition one_topic_placeholder (s : string) : Prop :=
  occurrences "{topic}" s = 1 ∧ occurrences "{" s = 1 ∧ occurrences "}" s = 1.

(** The world after [load_dotenv()]. *)
Definition loaded (w : World) : World := final (load_dotenv w).

(** The branch taken when the key is falsy, as one computation. *)
Definition ask_user : M pyval :=
  print "OpenAI API key not found in environment variables." ;;
  api_key ← getpass "Please enter your OpenAI API key: ";
  environ_set OPENAI_API_KEY api_key ;;
  mret api_key.

(** The world after [os.environ[k] = s]. *)
Definition stored (k s : string) (w : World) : World :=
  final (environ_set k (PyStr s) w).

(** The world in which agents.py calls [kickoff]: the resolved key and the
    model name have been written to the environment. *)
Definition configured (s : string) (w : World) : World :=
  stored "OPENAI_MODEL_NAME" "gpt-4" (stored "OPENAI_API_KEY" s w).

(** The world after the notice and a prompt that was answered (or not):
    [rest] is the input left. *)
Definition prompted (answer : option string) (rest : list string) (w : World)
    : World :=
  emit (Getpass "Please enter your OpenAI API key: " answer)
    (with_tty rest
       (emit (Printed "OpenAI API key not found in environment variables.") w)).


(** ** The reference algorithm of the specification

    Written after the words of the specification: check the environment
    variable; if absent, load the dotenv file into the environment and check
    again; if still absent, prompt without echo; cache and return. The test
    for absence is a parameter: [py_not] reads an empty value as absent, as
    the code does, [is_none] reads only an unset variable as absent. *)

Definition is_none (v : pyval) : bool :=
  match v with
  | PyNone => true
  | PyStr _ => false
  end.

Definition reference_get_api_key (absent : pyval → bool) : M pyval :=
  api_key ← environ_get OPENAI_API_KEY;
  api_key ← (if absent api_key
             then load_dotenv ;; environ_get OPENAI_API_KEY
             else mret api_key);
  api_key ← (if absent api_key
             then getpass "Please enter your OpenAI API key: "
             else mret api_key);
  environ_set OPENAI_API_KEY api_key ;;
  mret api_key.


(** ** Sample worlds *)

Notation "'ev' s" := (mk_envstr s eq_refl) (at level 10, s at level 9).

Definition world (e : gmap string envstr) (f : option raw_values)
    (input : list string) : World :=
  {| os_environ := e; dotenv_file := f; utils_importable := true;
     tty := input; trace := [] |}.

(** The file [OPENAI_API_KEY=sk-file]. *)
Definition file_with_key : raw_values :=
  [("OPENAI_API_KEY", Some [Literal (ev "sk-file")])].




Definition world_no_key : World := world ∅ None ["typed"].

Definition world_empty_env_key : World :=
  world {[ "OPENAI_API_KEY" := ev "" ]} (Some file_with_key) ["typed"].

Definition world_env_key_no_file : World :=
  world {[ "OPENAI_API_KEY" := ev "sk-env" ]} None ["typed"].



(** Loading switched off, with the key in the file. *)
Definition world_dotenv_disabled : World :=
  world {[ "PYTHON_DOTENV_DISABLED" := ev "1" ]} (Some file_with_key) ["typed"].

(** The file [BASE=sk-file] and [OPENAI_API_KEY=${BASE}base], with [BASE]
    set in the environment. *)
Definition world_interpolated : World :=
  world {[ "BASE" := ev "sk-env" ]}
    (Some [("BASE", Some [Literal (ev "sk-file")]);
           ("OPENAI_API_KEY", Some [VariableRef "BASE" None; Literal (ev "base")])])
    ["typed"].

(** An answer with a NUL byte in it. *)
Definition nul_answer : string := "sk" ++ String "000" "x".

Definition world_nul_answer : World := world ∅ None [nul_answer].

(** An engine that answers with a fixed article. *)
Definition kickoff_article : Crew → list (string * string) → M string :=
  λ _ _, mret "article".


(** ** Further notions used by the statements *)

(** The test of [if not api_key], on the environment [load_dotenv()] left:
    the key is unset or empty. *)
Definition key_missing (w : World) : bool :=
  py_not (of_lookup (environ (loaded w) !! OPENAI_API_KEY)).

(** Every brace of [s] belongs to an occurrence of [{topic}]. *)
Definition only_topic_placeholders (s : string) : bool :=
  Nat.eqb (occurrences "{" s) (occurrences "{topic}" s)
  && Nat.eqb (occurrences "}" s) (occurrences "{topic}" s).

Definition agent_strings (a : Agent) : list string :=
  [role a; goal a; backstory a].

Definition task_strings (t : Task) : list string :=
  [name t; description t; expected_output t].

Definition world_empty_answer : World := world ∅ None [""; "sk-typed"].

Definition world_no_input : World := world ∅ None [].

Definition world_model_preset : World :=
  world {[ "OPENAI_API_KEY" := ev "sk-env";
           "OPENAI_MODEL_NAME" := ev "gpt-3.5-turbo" ]}
    (Some [("OPENAI_MODEL_NAME", Some [Literal (ev "gpt-4o")]);
           ("FOO", Some [Literal (ev "bar")])]) [].

(** A key has a value among resolved bindings. *)
Definition has_value (m : gmap string (option envstr)) (k : string) : Prop :=
  ∃ v, m !! k = Some (Some v).

(** ** Facts about strings and the environment *)

Lemma has_nul_app (a b : string) :
  has_nul (a ++ b) = has_nul a || has_nul b.
Proof.
  induction a as [|c a IH]; simpl; [reflexivity|].
  rewrite IH. apply orb_assoc.
Qed.


Lemma to_envstr_car (s : string) (e : envstr) :
  to_envstr s = Some e → envstr_car e = s.
Proof.
  unfold to_envstr. destruct (decide (has_nul s = false)); [|discriminate].
  intros [= <-]. reflexivity.
Qed.

Lemma to_envstr_is_Some (s : string) :
  has_nul s = false → ∃ e, to_envstr s = Some e ∧ envstr_car e = s.
Proof.
  intros H. unfold to_envstr.
  destruct (decide (has_nul s = false)); [|contradiction]. eauto.
Qed.

Lemma to_envstr_None (s : string) : has_nul s = true → to_envstr s = None.
Proof.
  intros H. unfold to_envstr.
  destruct (decide (has_nul s = false)); [congruence | reflexivity].
Qed.

Lemma envstr_app_car (a b : envstr) :
  envstr_car (envstr_app a b) = envstr_car a ++ envstr_car b.
Proof.
  unfold envstr_app.
  destruct (to_envstr_is_Some (envstr_car a ++ envstr_car b)) as (e & -> & He);
    [|exact He].
  rewrite has_nul_app, (envstr_ok a), (envstr_ok b). reflexivity.
Qed.

Lemma lookup_environ (w : World) (k : string) :
  environ w !! k = envstr_car <$> os_environ w !! k.
Proof. unfold environ. apply lookup_fmap. Qed.

(** No value of the environment holds a NUL byte. *)
Lemma environ_nul_free (w : World) (k v : string) :
  environ w !! k = Some v → has_nul v = false.
Proof.
  rewrite lookup_environ. destruct (os_environ w !! k) as [e|]; [|discriminate].
  intros [= <-]. apply envstr_ok.
Qed.

Lemma with_os_environ_id (w : World) : with_os_environ (os_environ w) w = w.
Proof. destruct w; reflexivity. Qed.

(** A successful assignment. *)
Lemma environ_set_ok (k s : string) (w : World) :
  valid_name k = true → has_nul s = false →
  environ_set k (PyStr s) w = (inr (), stored k s w) ∧
  environ (stored k s w) = <[k := s]> (environ w) ∧
  dotenv_file (stored k s w) = dotenv_file w ∧
  utils_importable (stored k s w) = utils_importable w ∧
  tty (stored k s w) = tty w ∧ trace (stored k s w) = trace w.
Proof.
  intros Hk Hs. unfold stored, final, environ_set.
  destruct (to_envstr_is_Some s Hs) as (e & -> & He). rewrite Hk. simpl.
  split_and!; try reflexivity.
  unfold environ. simpl. rewrite fmap_insert, He. reflexivity.
Qed.

(** An assignment refused for a NUL byte in the value. *)
Lemma environ_set_nul (k s : string) (w : World) :
  valid_name k = true → has_nul s = true →
  environ_set k (PyStr s) w = (inl (ValueError "embedded null byte"), w).
Proof.
  intros _ Hs. unfold environ_set. rewrite (to_envstr_None s Hs).
  reflexivity.
Qed.


(** ** Facts about python-dotenv *)

(** Which keys have a value depends on the file alone, not on the
    environment the references are resolved in. *)
Lemma resolve_fold_has_value (e1 e2 : gmap string envstr) (values : raw_values) :
  ∀ acc1 acc2 : gmap string (option envstr),
    (∀ j, has_value acc1 j ↔ has_value acc2 j) →
    ∀ j, has_value (foldl (resolve_binding e1) acc1 values) j ↔
         has_value (foldl (resolve_binding e2) acc2 values) j.
Proof.
  induction values as [|[n v] values IH]; intros acc1 acc2 H; [exact H|].
  simpl. apply IH. intros j. unfold resolve_binding, has_value. simpl.
  destruct (decide (n = j)) as [->|Hne].
  - rewrite !lookup_insert_eq. destruct v as [atoms|].
    + split; intros _; eauto.
    + split; intros (x & Hx); discriminate.
  - rewrite !lookup_insert_ne by exact Hne. apply H.
Qed.

Lemma resolve_variables_has_value (e1 e2 : gmap string envstr)
    (values : raw_values) (k : string) :
  has_value (resolve_variables e1 values) k ↔
  has_value (resolve_variables e2 values) k.
Proof.
  unfold resolve_variables. apply resolve_fold_has_value. intros j. reflexivity.
Qed.

Lemma lookup_dotenv_merge (e : gmap string envstr) (values : raw_values)
    (k : string) :
  dotenv_merge e values !! k =
    match e !! k with
    | Some v => Some v
    | None =>
        match resolve_variables e values !! k with
        | Some (Some v) => Some v
        | _ => None
        end
    end.
Proof.
  unfold dotenv_merge. rewrite lookup_union, lookup_omap.
  destruct (e !! k) as [v|], (resolve_variables e values !! k) as [[v'|]|];
    reflexivity.
Qed.

(** A map that holds every key the file gives a value is left as it is. *)
Lemma dotenv_merge_id (e e0 : gmap string envstr) (values : raw_values) :
  (∀ k, has_value (resolve_variables e0 values) k → is_Some (e !! k)) →
  dotenv_merge e values = e.
Proof.
  intros H. apply map_eq. intros k. rewrite lookup_dotenv_merge.
  destruct (e !! k) as [v|] eqn:E; [reflexivity|].
  destruct (resolve_variables e values !! k) as [[v|]|] eqn:E'; try reflexivity.
  destruct (H k) as [x Hx]; [|congruence].
  apply (resolve_variables_has_value e0 e). exists v. exact E'.
Qed.

Lemma dotenv_merge_holds (e : gmap string envstr) (values : raw_values)
    (k : string) :
  has_value (resolve_variables e values) k → is_Some (dotenv_merge e values !! k).
Proof.
  intros (v & Hv). rewrite lookup_dotenv_merge, Hv.
  destruct (e !! k); eauto.
Qed.

(** The switch is read from one variable. *)
Lemma load_dotenv_disabled_ext (e1 e2 : gmap string string) :
  e1 !! "PYTHON_DOTENV_DISABLED" = e2 !! "PYTHON_DOTENV_DISABLED" →
  load_dotenv_disabled e1 = load_dotenv_disabled e2.
Proof. intros H. unfold load_dotenv_disabled. rewrite H. reflexivity. Qed.

Lemma loaded_lookup (w : World) (k : string) :
  environ (loaded w) !! k =
    match environ w !! k with
    | Some v => Some v
    | None => dotenv_value w k
    end.
Proof.
  unfold loaded, final, load_dotenv, dotenv_value.
  destruct (load_dotenv_disabled (environ w)); simpl.
  { destruct (environ w !! k); reflexivity. }
  destruct (dotenv_file w) as [f|]; simpl.
  - rewrite !lookup_environ. simpl. rewrite lookup_dotenv_merge.
    destruct (os_environ w !! k) as [v|]; [reflexivity|].
    destruct (resolve_variables (os_environ w) f !! k) as [[v|]|]; reflexivity.
  - destruct (environ w !! k); reflexivity.
Qed.

Lemma loaded_no_file (w : World) : dotenv_file w = None → loaded w = w.
Proof.
  intros H. unfold loaded, final, load_dotenv. rewrite H.
  destruct (load_dotenv_disabled (environ w)); reflexivity.
Qed.

Lemma loaded_frame (w : World) :
  dotenv_file (loaded w) = dotenv_file w ∧
  utils_importable (loaded w) = utils_importable w ∧
  tty (loaded w) = tty w ∧ trace (loaded w) = trace w.
Proof.
  unfold loaded, final, load_dotenv.
  destruct (load_dotenv_disabled (environ w)); [auto|].
  destruct (dotenv_file w) eqn:E; simpl; rewrite ?E; auto.
Qed.

(** Existing variables survive [load_dotenv()]. *)
Lemma loaded_kept (w : World) (k v : string) :
  environ w !! k = Some v → environ (loaded w) !! k = Some v.
Proof. intros H. rewrite loaded_lookup, H. reflexivity. Qed.

(** Loading again changes nothing: in the world [load_dotenv()] left, also
    after a variable other than the switch has been written. *)
Lemma loaded_stable (w w' : World) :
  dotenv_file w' = dotenv_file w →
  (os_environ w' = os_environ (loaded w) ∨
   ∃ k e, k ≠ "PYTHON_DOTENV_DISABLED" ∧
          os_environ w' = <[k := e]> (os_environ (loaded w))) →
  loaded w' = w'.
Proof.
  intros Hf He.
  assert (Hsw : environ w' !! "PYTHON_DOTENV_DISABLED" =
                environ (loaded w) !! "PYTHON_DOTENV_DISABLED").
  { rewrite !lookup_environ. destruct He as [->|(k & e & Hk & ->)]; [reflexivity|].
    rewrite lookup_insert_ne by exact Hk. reflexivity. }
  assert (Hsub : ∀ k, is_Some (os_environ (loaded w) !! k) →
                      is_Some (os_environ w' !! k)).
  { intros k H. destruct He as [->|(j & e & _ & ->)]; [exact H|].
    destruct (decide (j = k)) as [->|Hne].
    - rewrite lookup_insert_eq. eauto.
    - rewrite lookup_insert_ne by exact Hne. exact H. }
  unfold loaded at 1. unfold final, load_dotenv.
  destruct (load_dotenv_disabled (environ w')) eqn:Ed; [reflexivity|].
  rewrite Hf. destruct (dotenv_file w) as [f|] eqn:Ef; [|reflexivity]. simpl.
  rewrite (dotenv_merge_id (os_environ w') (os_environ w) f);
    [apply with_os_environ_id|].
  intros k Hk. apply Hsub.
  revert Hsw Ed. unfold loaded, final, load_dotenv.
  destruct (load_dotenv_disabled (environ w)) eqn:Ed0; simpl.
  - intros Hsw Ed. rewrite (load_dotenv_disabled_ext _ _ Hsw) in Ed. congruence.
  - rewrite Ef. simpl. intros _ _. apply dotenv_merge_holds. exact Hk.
Qed.

Lemma loaded_loaded (w : World) : loaded (loaded w) = loaded w.
Proof.
  apply (loaded_stable w); [apply loaded_frame | left; reflexivity].
Qed.

Lemma prompt_count_app (t u : list event) :
  prompt_count (t ++ u) = prompt_count t + prompt_count u.
Proof.
  induction t as [|[line|p a] t IH]; simpl; [reflexivity | exact IH |].
  rewrite IH. reflexivity.
Qed.

Lemma valid_OPENAI_API_KEY : valid_name OPENAI_API_KEY = true.
Proof. reflexivity. Qed.

(** ** Facts about the resolver *)

Lemma get_openai_api_key_unfold (w : World) :
  get_openai_api_key w =
    let api_key := of_lookup (environ (loaded w) !! OPENAI_API_KEY) in
    if py_not api_key then ask_user (loaded w) else (inr api_key, loaded w).
Proof.
  unfold get_openai_api_key, ask_user, loaded, final, mbind, M_bind, load_dotenv.
  destruct (load_dotenv_disabled (environ w)); [|destruct (dotenv_file w) as [f|]];
    simpl;
    match goal with |- context [py_not ?v] => destruct (py_not v) end;
    reflexivity.
Qed.

Lemma prompted_frame (a : option string) (rest : list string) (w : World) :
  os_environ (prompted a rest w) = os_environ w ∧
  environ (prompted a rest w) = environ w ∧
  dotenv_file (prompted a rest w) = dotenv_file w ∧
  utils_importable (prompted a rest w) = utils_importable w ∧
  tty (prompted a rest w) = rest ∧
  trace (prompted a rest w) =
    (trace w ++ [Printed "OpenAI API key not found in environment variables.";
                 Getpass "Please enter your OpenAI API key: " a])%list.
Proof.
  unfold prompted, environ. simpl. rewrite <- app_assoc.
  split_and!; reflexivity.
Qed.

(** The answer is stored and returned when it holds no NUL byte. *)
Lemma ask_user_answer (w : World) (p : string) (rest : list string) :
  tty w = p :: rest → has_nul p = false →
  ask_user w =
    (inr (PyStr p), stored OPENAI_API_KEY p (prompted (Some p) rest w)).
Proof.
  intros H Hp. unfold ask_user, mbind, M_bind, print, getpass. simpl.
  rewrite H.
  rewrite (proj1 (environ_set_ok OPENAI_API_KEY p _ valid_OPENAI_API_KEY Hp)).
  reflexivity.
Qed.

(** An answer with a NUL byte is refused by [os.environ]. *)
Lemma ask_user_nul (w : World) (p : string) (rest : list string) :
  tty w = p :: rest → has_nul p = true →
  ask_user w =
    (inl (ValueError "embedded null byte"), prompted (Some p) rest w).
Proof.
  intros H Hp. unfold ask_user, mbind, M_bind, print, getpass. simpl.
  rewrite H.
  rewrite (environ_set_nul OPENAI_API_KEY p _ valid_OPENAI_API_KEY Hp).
  reflexivity.
Qed.

Lemma ask_user_eof (w : World) :
  tty w = [] →
  ask_user w =
    (inl EOFError,
     emit (Getpass "Please enter your OpenAI API key: " None)
       (emit (Printed "OpenAI API key not found in environment variables.") w)).
Proof.
  intros H. unfold ask_user, mbind, M_bind, print, getpass. simpl.
  rewrite H. reflexivity.
Qed.

(** The three outcomes of the prompt branch, by the pending input. *)
Lemma ask_user_cases (w : World) :
  (tty w = [] ∧
   ask_user w =
     (inl EOFError,
      emit (Getpass "Please enter your OpenAI API key: " None)
        (emit (Printed "OpenAI API key not found in environment variables.") w)))
  ∨ (∃ p rest, tty w = p :: rest ∧ has_nul p = true ∧
       ask_user w =
         (inl (ValueError "embedded null byte"), prompted (Some p) rest w))
  ∨ (∃ p rest, tty w = p :: rest ∧ has_nul p = false ∧
       ask_user w =
         (inr (PyStr p), stored OPENAI_API_KEY p (prompted (Some p) rest w))).
Proof.
  destruct (tty w) as [|p rest] eqn:Et.
  - left. split; [reflexivity | exact (ask_user_eof w Et)].
  - right. destruct (has_nul p) eqn:Hp.
    + left. exists p, rest.
      split_and!; [reflexivity | exact Hp | exact (ask_user_nul w p rest Et Hp)].
    + right. exists p, rest.
      split_and!; [reflexivity | exact Hp | exact (ask_user_answer w p rest Et Hp)].
Qed.

(** What an accepted answer leaves. *)
Lemma stored_answer (w : World) (p : string) (rest : list string) :
  has_nul p = false →
  environ (stored OPENAI_API_KEY p (prompted (Some p) rest w)) =
    <[OPENAI_API_KEY := p]> (environ w) ∧
  dotenv_file (stored OPENAI_API_KEY p (prompted (Some p) rest w)) =
    dotenv_file w ∧
  tty (stored OPENAI_API_KEY p (prompted (Some p) rest w)) = rest ∧
  trace (stored OPENAI_API_KEY p (prompted (Some p) rest w)) =
    (trace w ++ [Printed "OpenAI API key not found in environment variables.";
                 Getpass "Please enter your OpenAI API key: " (Some p)])%list.
Proof.
  intros Hp.
  destruct (environ_set_ok OPENAI_API_KEY p (prompted (Some p) rest w)
              valid_OPENAI_API_KEY Hp) as (_ & He & Hd & _ & Ht & Hr).
  destruct (prompted_frame (Some p) rest w) as (_ & He' & Hd' & _ & Ht' & Hr').
  rewrite He, Hd, Ht, Hr, He', Hd', Ht', Hr'. auto.
Qed.

Lemma ask_user_prompts (w : World) :
  prompt_count (trace (final (ask_user w))) = S (prompt_count (trace w)).
Proof.
  destruct (ask_user_cases w) as [(_ & ->)|[(p & rest & _ & _ & ->)|(p & rest & _ & Hp & ->)]];
    simpl.
  - rewrite !prompt_count_app. simpl. lia.
  - rewrite !prompt_count_app. simpl. lia.
  - destruct (stored_answer w p rest Hp) as (_ & _ & _ & ->).
    rewrite prompt_count_app. simpl. lia.
Qed.

Lemma py_not_found (v : string) : v ≠ "" → py_not (PyStr v) = false.
Proof. destruct v; [congruence | reflexivity]. Qed.

Lemma py_not_false_inv (o : option string) :
  py_not (of_lookup o) = false → ∃ v, o = Some v ∧ v ≠ "".
Proof.
  destruct o as [[|c s]|]; simpl; try discriminate.
  intros _. eexists. split; [reflexivity | discriminate].
Qed.

(** When the key is truthy once the [.env] file is loaded, it is returned
    and nothing but [load_dotenv()] has touched the world. *)
Lemma get_openai_api_key_found (w : World) (v : string) :
  v ≠ "" → environ (loaded w) !! OPENAI_API_KEY = Some v →
  get_openai_api_key w = (inr (PyStr v), loaded w).
Proof.
  intros Hv H. rewrite get_openai_api_key_unfold. simpl. rewrite H. simpl.
  rewrite (py_not_found v Hv). reflexivity.
Qed.

(** When the key is falsy once the [.env] file is loaded, the user is asked. *)
Lemma get_openai_api_key_asks (w : World) :
  py_not (of_lookup (environ (loaded w) !! OPENAI_API_KEY)) = true →
  get_openai_api_key w = ask_user (loaded w).
Proof. intros H. rewrite get_openai_api_key_unfold. simpl. rewrite H. reflexivity. Qed.

Lemma key_missing_false (w : World) :
  key_missing w = false →
  ∃ v, environ (loaded w) !! OPENAI_API_KEY = Some v ∧ v ≠ "" ∧
       get_openai_api_key w = (inr (PyStr v), loaded w).
Proof.
  intros H. destruct (py_not_false_inv _ H) as (v & Hv & Hne).
  exists v. split_and!; [exact Hv | exact Hne |].
  exact (get_openai_api_key_found w v Hne Hv).
Qed.

Lemma key_missing_true (w : World) :
  key_missing w = true → get_openai_api_key w = ask_user (loaded w).
Proof. exact (get_openai_api_key_asks w). Qed.

(** [get_openai_api_key] itself writes the environment only when it
    prompts: without a prompt the world is the one [load_dotenv()] left. *)
Lemma environ_written_only_when_prompting (w : World) :
  prompt_count (trace (final (get_openai_api_key w))) = prompt_count (trace w) →
  final (get_openai_api_key w) = loaded w.
Proof.
  rewrite get_openai_api_key_unfold. simpl.
  destruct (py_not _); [|reflexivity].
  rewrite ask_user_prompts. destruct (loaded_frame w) as (_ & _ & _ & ->). lia.
Qed.

(** The outcomes of a call, by the state [load_dotenv()] left and the
    pending input. *)
Lemma get_openai_api_key_cases (w : World) :
  (∃ v, key_missing w = false ∧ environ (loaded w) !! OPENAI_API_KEY = Some v ∧
        v ≠ "" ∧ get_openai_api_key w = (inr (PyStr v), loaded w))
  ∨ (key_missing w = true ∧ tty w = [] ∧
     get_openai_api_key w =
       (inl EOFError,
        emit (Getpass "Please enter your OpenAI API key: " None)
          (emit (Printed "OpenAI API key not found in environment variables.")
             (loaded w))))
  ∨ (∃ p rest, key_missing w = true ∧ tty w = p :: rest ∧ has_nul p = true ∧
       get_openai_api_key w =
         (inl (ValueError "embedded null byte"),
          prompted (Some p) rest (loaded w)))
  ∨ (∃ p rest, key_missing w = true ∧ tty w = p :: rest ∧ has_nul p = false ∧
       get_openai_api_key w =
         (inr (PyStr p),
          stored OPENAI_API_KEY p (prompted (Some p) rest (loaded w)))).
Proof.
  destruct (loaded_frame w) as (_ & _ & Ht & _).
  destruct (key_missing w) eqn:E.
  - right. rewrite (key_missing_true w E), <- Ht.
    destruct (ask_user_cases (loaded w))
      as [(H1 & H2)|[(p & rest & H1 & H2 & H3)|(p & rest & H1 & H2 & H3)]].
    + left. auto.
    + right. left. exists p, rest. auto.
    + right. right. exists p, rest. auto.
  - left. destruct (key_missing_false w E) as (v & H1 & H2 & H3).
    exists v. auto.
Qed.

(** [get_openai_api_key] never returns [None]. *)
Lemma get_openai_api_key_str (w w' : World) (r : pyval) :
  get_openai_api_key w = (inr r, w') → ∃ s, r = PyStr s.
Proof.
  destruct (get_openai_api_key_cases w)
    as [(v & _ & _ & _ & ->)|[(_ & _ & ->)|[(p & rest & _ & _ & _ & ->)|(p & rest & _ & _ & _ & ->)]]];
    intros [= <- _] || discriminate; eauto.
Qed.

Lemma dotenv_value_absent (w : World) (k : string) :
  (∀ f, dotenv_file w = Some f → ∀ v, (k, v) ∉ f) → dotenv_value w k = None.
Proof.
  intros H. unfold dotenv_value.
  destruct (load_dotenv_disabled (environ w)); [reflexivity|].
  destruct (dotenv_file w) as [f|]; [|reflexivity].
  specialize (H f eq_refl).
  assert (Hn : resolve_variables (os_environ w) f !! k = None); [|rewrite Hn; reflexivity].
  unfold resolve_variables.
  assert (Hg : ∀ acc : gmap string (option envstr), acc !! k = None →
               foldl (resolve_binding (os_environ w)) acc f !! k = None);
    [|apply Hg, lookup_empty].
  induction f as [|[n v] f IH]; intros acc Hacc; [exact Hacc|].
  simpl. apply IH.
  - intros v' Hv'. apply (H v'). right. exact Hv'.
  - unfold resolve_binding. simpl. rewrite lookup_insert_ne; [exact Hacc|].
    intros ->. apply (H v). left.
Qed.

Lemma stored_os_environ (k s : string) (w : World) :
  valid_name k = true → has_nul s = false →
  ∃ e, envstr_car e = s ∧ os_environ (stored k s w) = <[k := e]> (os_environ w).
Proof.
  intros Hk Hs. unfold stored, final, environ_set.
  destruct (to_envstr_is_Some s Hs) as (e & -> & He). rewrite Hk. simpl. eauto.
Qed.

(** Whenever the resolver returns, the result is a string and the
    environment holds it under the key. *)
Lemma get_openai_api_key_stores (w w' : World) (r : pyval) :
  get_openai_api_key w = (inr r, w') →
  ∃ s, r = PyStr s ∧ environ w' !! OPENAI_API_KEY = Some s.
Proof.
  destruct (get_openai_api_key_cases w)
    as [(v & _ & Hv & _ & ->)|[(_ & _ & ->)|[(p & rest & _ & _ & _ & ->)|(p & rest & _ & _ & Hp & ->)]]];
    try discriminate.
  - intros [= <- <-]. eauto.
  - intros [= <- <-]. exists p. split; [reflexivity|].
    destruct (stored_answer (loaded w) p rest Hp) as (-> & _).
    apply lookup_insert_eq.
Qed.

(** The world a call leaves is one in which the [.env] file is loaded. *)
Lemma get_openai_api_key_final_loaded (w : World) :
  loaded (final (get_openai_api_key w)) = final (get_openai_api_key w).
Proof.
  destruct (loaded_frame w) as (Hd & _).
  destruct (get_openai_api_key_cases w)
    as [(v & _ & _ & _ & ->)|[(_ & _ & ->)|[(p & rest & _ & _ & _ & ->)|(p & rest & _ & _ & Hp & ->)]]];
    simpl.
  - apply loaded_loaded.
  - apply (loaded_stable w); [exact Hd | left; reflexivity].
  - apply (loaded_stable w); [exact Hd | left; reflexivity].
  - apply (loaded_stable w).
    + destruct (stored_answer (loaded w) p rest Hp) as (_ & -> & _). exact Hd.
    + right.
      destruct (stored_os_environ OPENAI_API_KEY p (prompted (Some p) rest (loaded w))
                  valid_OPENAI_API_KEY Hp) as (e & _ & ->).
      exists OPENAI_API_KEY, e. split; [discriminate | reflexivity].
Qed.

(** ** The credential resolver: claims *)





(** C10. With a non-empty [OPENAI_API_KEY] in the environment and no [.env]
    file, [get_openai_api_key] changes nothing: the environment, the pending
    terminal input and the trace are those of the call. *)
Theorem resolver_frame (w : World) (v : string) :
  v ≠ "" → environ w !! OPENAI_API_KEY = Some v → dotenv_file w = None →
  final (get_openai_api_key w) = w ∧
  environ (final (get_openai_api_key w)) = environ w.
Proof.
  intros Hv He Hf.
  rewrite (get_openai_api_key_found w v Hv).
  - simpl. rewrite (loaded_no_file w Hf). auto.
  - rewrite loaded_lookup, He. reflexivity.
Qed.



(** C3, as stated, also fails when loading is switched off: with
    [PYTHON_DOTENV_DISABLED=1] in the environment the file is not read, and
    the key it holds is not found. *)
Lemma dotenv_disabled_prompts :
  environ world_dotenv_disabled !! OPENAI_API_KEY = None ∧
  dotenv_file world_dotenv_disabled = Some file_with_key ∧
  returned (get_openai_api_key world_dotenv_disabled) = inr (PyStr "typed") ∧
  prompt_count (trace (final (get_openai_api_key world_dotenv_disabled))) = 1.
Proof. split_and!; vm_compute; reflexivity. Qed.

(** The value taken from the file is the expanded one: with [BASE=sk-env]
    in the environment, the line [OPENAI_API_KEY=${BASE}base] gives
    [sk-envbase], whatever the file says of [BASE]. *)
Lemma dotenv_reference_expanded :
  returned (get_openai_api_key world_interpolated) = inr (PyStr "sk-envbase") ∧
  environ (final (get_openai_api_key world_interpolated)) !! OPENAI_API_KEY =
    Some "sk-envbase" ∧
  environ (final (get_openai_api_key world_interpolated)) !! "BASE" =
    Some "sk-env" ∧
  prompt_count (trace (final (get_openai_api_key world_interpolated))) = 0.
Proof. split_and!; vm_compute; reflexivity. Qed.





Lemma resolver_frame_witness :
  final (get_openai_api_key world_env_key_no_file) = world_env_key_no_file ∧
  environ (final (get_openai_api_key world_env_key_no_file)) =
    environ world_env_key_no_file.
Proof.
  apply (resolver_frame world_env_key_no_file "sk-env");
    [discriminate | vm_compute; reflexivity | reflexivity].
Defined.

(** ** The resolver against the reference algorithm *)




(** Under the reading in which only an unset variable is absent, the
    reference algorithm would hand back an empty key where the code prompts. *)
Lemma strict_reference_returns_empty :
  returned (reference_get_api_key is_none world_empty_env_key) = inr (PyStr "") ∧
  returned (get_openai_api_key world_empty_env_key) = inr (PyStr "typed").
Proof. split; vm_compute; reflexivity. Qed.

(** ** The pipeline: tasks *)

Lemma height_upstream (t u : Task) : depends_on t u → height u < height t.
Proof.
  unfold depends_on. destruct t as [n d o a ctx]. simpl.
  induction ctx as [|x ctx IH]; intros H.
  - inversion H.
  - simpl. inversion H; subst; [lia|].
    specialize (IH ltac:(assumption)). lia.
Qed.

Lemma height_tc (t u : Task) : tc depends_on t u → height u < height t.
Proof.
  induction 1 as [x y H|x y z H _ IH].
  - exact (height_upstream x y H).
  - pose proof (height_upstream x y H). lia.
Qed.

(** No task is, directly or through others, upstream of itself. *)
Lemma depends_on_acyclic (t : Task) : ¬ tc depends_on t t.
Proof. intros H. apply height_tc in H. lia. Qed.

(** C1. The plan task has no upstream task, the upstream of write is exactly
    plan and that of edit exactly write; no task reaches itself along
    dependencies, and in the crew's task list every dependency points to an
    earlier task. *)
Theorem dependency_chain_linear :
  context plan = [] ∧ context write = [plan] ∧ context edit = [write] ∧
  (∀ u, ¬ depends_on plan u) ∧
  (∀ u, depends_on write u ↔ u = plan) ∧
  (∀ u, depends_on edit u ↔ u = write) ∧
  (∀ t, ¬ depends_on t t) ∧
  (∀ t, ¬ tc depends_on t t) ∧
  (∀ i t u, tasks crew !! i = Some t → depends_on t u →
            ∃ j, j < i ∧ tasks crew !! j = Some u).
Proof.
  assert (H1 : ∀ x u : Task, u ∈ [x] ↔ u = x).
  { intros x u. split; intros H.
    - inversion H as [|? ? ? H']; subst; [reflexivity | inversion H'].
    - subst. constructor. }
  split_and!; try reflexivity.
  - intros u H. inversion H.
  - intros u. apply H1.
  - intros u. apply H1.
  - intros t H. apply (depends_on_acyclic t). apply tc_once. exact H.
  - exact depends_on_acyclic.
  - intros [|[|[|i]]] t u Ht Hu; simpl in Ht; try discriminate;
      injection Ht as <-; unfold depends_on in Hu; simpl in Hu.
    + inversion Hu.
    + apply H1 in Hu. subst. exists 0. split; [lia | reflexivity].
    + apply H1 in Hu. subst. exists 1. split; [lia | reflexivity].
Qed.

(** ** The pipeline: agents *)

(** C6, as stated, fails for the editor: it is one of the crew's agents and
    its goal contains no placeholder at all. *)
Lemma editor_goal_has_no_placeholder :
  editor ∈ agents crew ∧
  occurrences "{topic}" (goal editor) = 0 ∧
  occurrences "{" (goal editor) = 0 ∧
  ¬ one_topic_placeholder (goal editor).
Proof.
  split; [repeat constructor|].
  split; [vm_compute; reflexivity|].
  split; [vm_compute; reflexivity|].
  intros (H & _). vm_compute in H. discriminate.
Qed.

(** C6, as amended. Each of the three agents has delegation switched off;
    the goals of the planner and of the writer are templates with exactly
    one placeholder, [{topic}]; the goal of the editor has no placeholder
    (the editor's [{topic}] is in its backstory). *)
Theorem agents_delegation_and_placeholders :
  agents crew = [planner; writer; editor] ∧
  (∀ a, a ∈ agents crew → allow_delegation a = false) ∧
  one_topic_placeholder (goal planner) ∧
  one_topic_placeholder (goal writer) ∧
  occurrences "{" (goal editor) = 0 ∧
  occurrences "{topic}" (backstory editor) = 1.
Proof.
  split; [reflexivity|].
  split.
  - intros a H. simpl in H.
    repeat (inversion H as [|? ? ? H']; subst; [reflexivity|]; clear H;
            rename H' into H).
    inversion H.
  - unfold one_topic_placeholder. repeat split; vm_compute; reflexivity.
Qed.


(** ** The script of agents.py *)

Lemma valid_OPENAI_MODEL_NAME : valid_name "OPENAI_MODEL_NAME" = true.
Proof. reflexivity. Qed.

(** The environment the two writes of the script leave. *)
Lemma configured_frame (s : string) (w : World) :
  has_nul s = false →
  environ (configured s w) =
    <["OPENAI_MODEL_NAME" := "gpt-4"]> (<["OPENAI_API_KEY" := s]> (environ w)) ∧
  dotenv_file (configured s w) = dotenv_file w ∧
  utils_importable (configured s w) = utils_importable w ∧
  tty (configured s w) = tty w ∧ trace (configured s w) = trace w.
Proof.
  intros Hs. unfold configured.
  destruct (environ_set_ok "OPENAI_API_KEY" s w valid_OPENAI_API_KEY Hs)
    as (_ & He & Hd & Hu & Ht & Hr).
  destruct (environ_set_ok "OPENAI_MODEL_NAME" "gpt-4" (stored "OPENAI_API_KEY" s w)
              valid_OPENAI_MODEL_NAME eq_refl) as (_ & He' & Hd' & Hu' & Ht' & Hr').
  rewrite He', Hd', Hu', Ht', Hr', He, Hd, Hu, Ht, Hr. auto.
Qed.

(** The writes of the script succeed on a string without NUL byte. *)
Lemma script_writes (kickoff : Crew → list (string * string) → M string)
    (topic s : string) (w : World) :
  has_nul s = false →
  (environ_set "OPENAI_API_KEY" (PyStr s) ;;
   environ_set "OPENAI_MODEL_NAME" (PyStr "gpt-4") ;;
   kickoff crew [("topic", topic)]) w =
    kickoff crew [("topic", topic)] (configured s w).
Proof.
  intros Hs. unfold mbind, M_bind.
  rewrite (proj1 (environ_set_ok "OPENAI_API_KEY" s w valid_OPENAI_API_KEY Hs)).
  rewrite (proj1 (environ_set_ok "OPENAI_MODEL_NAME" "gpt-4"
                    (stored "OPENAI_API_KEY" s w) valid_OPENAI_MODEL_NAME eq_refl)).
  reflexivity.
Qed.

(** The module body, by cases on the import and on the resolver's outcome. *)
Lemma script_unfold (kickoff : Crew → list (string * string) → M string)
    (topic : string) (w : World) :
  script kickoff topic w =
    if utils_importable w then
      match get_openai_api_key w with
      | (inl e, w') => (inl e, w')
      | (inr (PyStr s), w') => kickoff crew [("topic", topic)] (configured s w')
      | (inr PyNone, w') => (inl (TypeError "str expected, not NoneType"), w')
      end
    else (inl (ImportError import_error_message), w).
Proof.
  unfold script, imported_get_openai_api_key.
  unfold mbind at 1. unfold M_bind at 1.
  destruct (utils_importable w); [|reflexivity].
  destruct (get_openai_api_key w) as [[e|[|s]] w'] eqn:E; [reflexivity | reflexivity |].
  destruct (get_openai_api_key_stores w w' _ E) as (s' & [= <-] & Hs).
  exact (script_writes kickoff topic s w' (environ_nul_free w' _ s Hs)).
Qed.

(** Once the resolver has returned, the script reaches the engine. *)
Lemma script_after_resolver (kickoff : Crew → list (string * string) → M string)
    (topic s : string) (w w1 : World) :
  imported_get_openai_api_key w = (inr (PyStr s), w1) →
  has_nul s = false ∧
  script kickoff topic w = kickoff crew [("topic", topic)] (configured s w1).
Proof.
  intros H. rewrite script_unfold. revert H.
  unfold imported_get_openai_api_key.
  destruct (utils_importable w); [|discriminate].
  intros H. rewrite H.
  destruct (get_openai_api_key_stores w w1 _ H) as (s' & [= <-] & Hs).
  split; [exact (environ_nul_free w1 _ s Hs) | reflexivity].
Qed.




(** A NUL byte typed at the prompt stops the script with the [ValueError]
    of the resolver's assignment, before the engine is reached. *)
Lemma script_nul_answer :
  returned (script kickoff_article "Rust" world_nul_answer) =
    inl (ValueError "embedded null byte").
Proof. vm_compute. reflexivity. Qed.

(** C8. For every topic, once the credential is resolved the script hands
    the engine the crew of the three agents planner, writer, editor and the
    three tasks plan, write, edit, in that order; the topic reaches the
    engine only as the value of the input [topic]. *)
Theorem pipeline_submission (kickoff : Crew → list (string * string) → M string)
    (topic s : string) (w w1 : World) :
  imported_get_openai_api_key w = (inr (PyStr s), w1) →
  script kickoff topic w = kickoff crew [("topic", topic)] (configured s w1) ∧
  agents crew = [planner; writer; editor] ∧
  tasks crew = [plan; write; edit].
Proof.
  intros H. split; [|split; reflexivity].
  exact (proj2 (script_after_resolver kickoff topic s w w1 H)).
Qed.

Lemma pipeline_submission_witness :
  script kickoff_article "Rust" world_env_key_no_file =
    kickoff_article crew [("topic", "Rust")]
      (configured "sk-env" world_env_key_no_file) ∧
  agents crew = [planner; writer; editor] ∧
  tasks crew = [plan; write; edit].
Proof.
  apply (pipeline_submission kickoff_article "Rust" "sk-env"
           world_env_key_no_file world_env_key_no_file).
  vm_compute. reflexivity.
Defined.

(** ** Further properties of the resolver *)

(** X1. Whenever [get_openai_api_key] returns, it returns a [str], and that
    string is the value of [OPENAI_API_KEY] in the environment it leaves. *)
Theorem returned_key_is_in_environ (w w' : World) (r : pyval) :
  get_openai_api_key w = (inr r, w') →
  ∃ s, r = PyStr s ∧ environ w' !! OPENAI_API_KEY = Some s.
Proof.
  intros H.
  destruct (get_openai_api_key_str w w' r H) as (s & ->).
  exists s. split; [reflexivity|].
  destruct (get_openai_api_key_stores w w' _ H) as (s' & [= <-] & Hs).
  exact Hs.
Qed.

Lemma returned_key_is_in_environ_witness :
  ∃ s, PyStr "typed" = PyStr s ∧
       environ (final (get_openai_api_key world_no_key)) !! OPENAI_API_KEY = Some s.
Proof.
  apply (returned_key_is_in_environ world_no_key
           (final (get_openai_api_key world_no_key)) (PyStr "typed")).
  vm_compute. reflexivity.
Defined.

(** X2. A non-empty key is cached for the session: after a call that
    returned it, a further call returns the same key and changes nothing, so
    it neither prompts nor prints. *)
Theorem second_call_returns_cached_key (w w' : World) (s : string) :
  get_openai_api_key w = (inr (PyStr s), w') → s ≠ "" →
  get_openai_api_key w' = (inr (PyStr s), w').
Proof.
  intros H Hs.
  assert (Hl : loaded w' = w').
  { pose proof (get_openai_api_key_final_loaded w) as Hf.
    rewrite H in Hf. exact Hf. }
  destruct (get_openai_api_key_stores w w' _ H) as (s' & [= <-] & Hk).
  rewrite <- Hl in Hk.
  rewrite (get_openai_api_key_found w' s Hs Hk), Hl. reflexivity.
Qed.

Lemma second_call_returns_cached_key_witness :
  get_openai_api_key (final (get_openai_api_key world_no_key)) =
    (inr (PyStr "typed"), final (get_openai_api_key world_no_key)).
Proof.
  apply (second_call_returns_cached_key world_no_key
           (final (get_openai_api_key world_no_key)) "typed");
    [vm_compute; reflexivity | discriminate].
Defined.


(** X3. The answer to the prompt is not validated: when the key is missing
    and the user enters nothing, the empty string is returned and stored as
    the key, and the key is still missing for the next call. *)
Theorem empty_answer_is_accepted (w : World) (rest : list string) :
  key_missing w = true → tty w = "" :: rest →
  returned (get_openai_api_key w) = inr (PyStr "") ∧
  environ (final (get_openai_api_key w)) !! OPENAI_API_KEY = Some "" ∧
  key_missing (final (get_openai_api_key w)) = true.
Proof.
  intros Hm Ht.
  destruct (loaded_frame w) as (_ & _ & Hl & _). rewrite <- Hl in Ht.
  assert (Hg : get_openai_api_key w =
               (inr (PyStr ""),
                stored OPENAI_API_KEY "" (prompted (Some "") rest (loaded w)))).
  { rewrite (key_missing_true w Hm). exact (ask_user_answer _ "" rest Ht eq_refl). }
  assert (He : environ (final (get_openai_api_key w)) !! OPENAI_API_KEY = Some "").
  { rewrite Hg. simpl.
    destruct (stored_answer (loaded w) "" rest eq_refl) as (-> & _).
    apply lookup_insert_eq. }
  split_and!; [rewrite Hg; reflexivity | exact He |].
  unfold key_missing. rewrite get_openai_api_key_final_loaded, He. reflexivity.
Qed.

Lemma empty_answer_is_accepted_witness :
  returned (get_openai_api_key world_empty_answer) = inr (PyStr "") ∧
  environ (final (get_openai_api_key world_empty_answer)) !! OPENAI_API_KEY =
    Some "" ∧
  key_missing (final (get_openai_api_key world_empty_answer)) = true.
Proof.
  apply (empty_answer_is_accepted world_empty_answer ["sk-typed"]);
    [vm_compute; reflexivity | reflexivity].
Defined.



(** X5. A variable that is set when [get_openai_api_key] is called keeps its
    value, the one exception being an empty [OPENAI_API_KEY]: neither the
    [.env] file nor the prompt replaces what the environment holds. *)
Theorem existing_variables_kept (w : World) (k v : string) :
  environ w !! k = Some v → k ≠ OPENAI_API_KEY ∨ v ≠ "" →
  environ (final (get_openai_api_key w)) !! k = Some v.
Proof.
  intros H Hk.
  pose proof (loaded_kept w k v H) as Hl.
  destruct (get_openai_api_key_cases w)
    as [(v' & _ & _ & _ & ->)|[(_ & _ & ->)|[(p & rest & _ & _ & _ & ->)|(p & rest & Hm & _ & Hp & ->)]]];
    simpl; try exact Hl.
  destruct (stored_answer (loaded w) p rest Hp) as (-> & _).
  rewrite lookup_insert_ne; [exact Hl|].
  intros <-. unfold key_missing in Hm. rewrite Hl in Hm.
  destruct Hk as [Hk|Hk]; [congruence|].
  change (py_not (PyStr v) = true) in Hm.
  rewrite (py_not_found v Hk) in Hm. discriminate.
Qed.

Lemma existing_variables_kept_witness :
  environ (final (get_openai_api_key world_model_preset)) !! "OPENAI_MODEL_NAME" =
    Some "gpt-3.5-turbo".
Proof.
  apply (existing_variables_kept world_model_preset "OPENAI_MODEL_NAME"
           "gpt-3.5-turbo");
    [vm_compute; reflexivity | left; discriminate].
Defined.

(** X6. Every variable of the environment a call leaves comes from the
    environment of the call or from the [.env] file, or is [OPENAI_API_KEY]
    itself: nothing else is written. *)
Theorem final_variables_origin (w : World) (k v : string) :
  environ (final (get_openai_api_key w)) !! k = Some v →
  environ w !! k = Some v ∨ dotenv_value w k = Some v ∨ k = OPENAI_API_KEY.
Proof.
  assert (Hl : environ (loaded w) !! k = Some v →
               environ w !! k = Some v ∨ dotenv_value w k = Some v).
  { rewrite loaded_lookup. destruct (environ w !! k); auto. }
  destruct (get_openai_api_key_cases w)
    as [(v' & _ & _ & _ & ->)|[(_ & _ & ->)|[(p & rest & _ & _ & _ & ->)|(p & rest & _ & _ & Hp & ->)]]];
    simpl.
  - intros H. destruct (Hl H); auto.
  - intros H. destruct (Hl H); auto.
  - intros H. destruct (Hl H); auto.
  - destruct (stored_answer (loaded w) p rest Hp) as (-> & _).
    destruct (decide (OPENAI_API_KEY = k)) as [<-|Hne]; [auto|].
    rewrite lookup_insert_ne by exact Hne. intros H. destruct (Hl H); auto.
Qed.

Lemma final_variables_origin_witness :
  environ world_model_preset !! "FOO" = Some "bar" ∨
  dotenv_value world_model_preset "FOO" = Some "bar" ∨
  "FOO" = OPENAI_API_KEY.
Proof.
  apply (final_variables_origin world_model_preset "FOO" "bar").
  vm_compute. reflexivity.
Defined.


(** ** Further properties of the script *)

(** X8. Whatever the environment or the [.env] file said before, the engine
    starts in an environment where [OPENAI_API_KEY] is the resolved key and
    [OPENAI_MODEL_NAME] is [gpt-4]; every other variable, the pending input
    and the trace are as the resolver left them. *)
Theorem engine_environment (kickoff : Crew → list (string * string) → M string)
    (topic s : string) (w w1 : World) :
  imported_get_openai_api_key w = (inr (PyStr s), w1) →
  ∃ w2, script kickoff topic w = kickoff crew [("topic", topic)] w2 ∧
        environ w2 !! "OPENAI_API_KEY" = Some s ∧
        environ w2 !! "OPENAI_MODEL_NAME" = Some "gpt-4" ∧
        (∀ k, k ≠ "OPENAI_API_KEY" → k ≠ "OPENAI_MODEL_NAME" →
              environ w2 !! k = environ w1 !! k) ∧
        tty w2 = tty w1 ∧ trace w2 = trace w1 ∧
        dotenv_file w2 = dotenv_file w1.
Proof.
  intros H. exists (configured s w1).
  destruct (script_after_resolver kickoff topic s w w1 H) as (Hs & Hk).
  destruct (configured_frame s w1 Hs) as (He & Hd & _ & Ht & Hr).
  rewrite He. split_and!; [exact Hk | | | | exact Ht | exact Hr | exact Hd].
  - rewrite lookup_insert_ne by discriminate. apply lookup_insert_eq.
  - apply lookup_insert_eq.
  - intros k H1 H2. rewrite !lookup_insert_ne by congruence. reflexivity.
Qed.

Lemma engine_environment_witness :
  ∃ w2, script kickoff_article "Rust" world_model_preset =
          kickoff_article crew [("topic", "Rust")] w2 ∧
        environ w2 !! "OPENAI_API_KEY" = Some "sk-env" ∧
        environ w2 !! "OPENAI_MODEL_NAME" = Some "gpt-4" ∧
        (∀ k, k ≠ "OPENAI_API_KEY" → k ≠ "OPENAI_MODEL_NAME" →
              environ w2 !! k = environ (loaded world_model_preset) !! k) ∧
        tty w2 = tty (loaded world_model_preset) ∧
        trace w2 = trace (loaded world_model_preset) ∧
        dotenv_file w2 = dotenv_file (loaded world_model_preset).
Proof.
  apply (engine_environment kickoff_article "Rust" "sk-env" world_model_preset
           (loaded world_model_preset)).
  vm_compute. reflexivity.
Defined.



(** With loading switched off the same file does not help: the script
    prompts. *)
Lemma script_prompts_when_dotenv_disabled :
  prompt_count
    (trace (final (script kickoff_article "Rust" world_dotenv_disabled))) = 1.
Proof. vm_compute. reflexivity. Qed.

(** X10. Run without a usable key and without terminal input, the script
    stops with the [EOFError] of [getpass], whatever the engine: the engine
    is not started and the script's own writes to [OPENAI_API_KEY] and
    [OPENAI_MODEL_NAME] do not happen, the environment being the one
    [load_dotenv()] left. *)
Theorem script_without_key_or_input
    (kickoff : Crew → list (string * string) → M string)
    (topic : string) (w : World) :
  utils_importable w = true → key_missing w = true → tty w = [] →
  returned (script kickoff topic w) = inl EOFError ∧
  environ (final (script kickoff topic w)) = environ (loaded w) ∧
  prompt_count (trace (final (script kickoff topic w))) = S (prompt_count (trace w)).
Proof.
  intros Hu Hm Ht. destruct (loaded_frame w) as (_ & _ & Hl & Hr).
  rewrite <- Hl in Ht.
  rewrite script_unfold, Hu, (key_missing_true w Hm), (ask_user_eof _ Ht).
  simpl. rewrite !prompt_count_app, Hr. simpl. split_and!; [reflexivity .. | lia].
Qed.

Lemma script_without_key_or_input_witness :
  returned (script kickoff_article "Rust" world_no_input) = inl EOFError ∧
  environ (final (script kickoff_article "Rust" world_no_input)) =
    environ (loaded world_no_input) ∧
  prompt_count (trace (final (script kickoff_article "Rust" world_no_input))) =
    S (prompt_count (trace world_no_input)).
Proof.
  apply (script_without_key_or_input kickoff_article "Rust" world_no_input);
    [reflexivity | vm_compute; reflexivity | reflexivity].
Defined.

(** ** Further properties of the crew *)

Lemma elem_of_three {A} (x a b c : A) :
  x ∈ [a; b; c] → x = a ∨ x = b ∨ x = c.
Proof.
  intros H.
  inversion H as [|? ? ? H1]; subst; [auto|].
  inversion H1 as [|? ? ? H2]; subst; [auto|].
  inversion H2 as [|? ? ? H3]; subst; [auto|]. inversion H3.
Qed.

(** X11. The crew is closed and aligned: every task of the crew is assigned
    to an agent of the crew, the i-th task to the i-th agent; every upstream
    task of a task of the crew is itself a task of the crew; task names and
    agent roles are pairwise distinct. *)
Theorem crew_well_formed :
  (∀ t, t ∈ tasks crew → agent t ∈ agents crew) ∧
  agent <$> tasks crew = agents crew ∧
  (∀ t u, t ∈ tasks crew → depends_on t u → u ∈ tasks crew) ∧
  NoDup (name <$> tasks crew) ∧
  NoDup (role <$> agents crew).
Proof.
  split_and!.
  - intros t H. destruct (elem_of_three _ _ _ _ H) as [-> | [-> | ->]];
      simpl; repeat constructor.
  - reflexivity.
  - intros t u H Hu. unfold depends_on in Hu.
    destruct (elem_of_three _ _ _ _ H) as [-> | [-> | ->]]; simpl in Hu.
    + inversion Hu.
    + inversion Hu as [|? ? ? H']; subst; [repeat constructor | inversion H'].
    + inversion Hu as [|? ? ? H']; subst; [repeat constructor | inversion H'].
  - apply (bool_decide_unpack _). vm_compute. reflexivity.
  - apply (bool_decide_unpack _). vm_compute. reflexivity.
Qed.

(** X12. No string of an agent (role, goal, backstory) or of a task (name,
    description, expected output) of the crew holds a brace outside an
    occurrence of [{topic}]: the one input the script passes, [topic], is
    the only placeholder the templates mention. *)
Theorem templates_mention_only_topic :
  (∀ a s, a ∈ agents crew → s ∈ agent_strings a →
          only_topic_placeholders s = true) ∧
  (∀ t s, t ∈ tasks crew → s ∈ task_strings t →
          only_topic_placeholders s = true).
Proof.
  split.
  - intros a s Ha Hs.
    destruct (elem_of_three _ _ _ _ Ha) as [-> | [-> | ->]];
      destruct (elem_of_three _ _ _ _ Hs) as [-> | [-> | ->]];
      vm_compute; reflexivity.
  - intros t s Ht Hs.
    destruct (elem_of_three _ _ _ _ Ht) as [-> | [-> | ->]];
      destruct (elem_of_three _ _ _ _ Hs) as [-> | [-> | ->]];
      vm_compute; reflexivity.
Qed.
